(** * STUN helpers: a shallow embedding of [stun.ts] and [stun.type.ts]

    The development follows the two TypeScript sources of the repository:

    - [src/stun_helpers/stun.ts]: class [STUNHelpers] with the static methods
      [_int2Buf16], [_getBit] and [_compareBuf] (lines 25-109);
    - [src/stun_data_type/stun.type.ts]: class [STUNType].

    After the class, [stun.ts] ends with a block comment (lines 111-141)
    that holds the text of two more methods, [_ipv4Str2Buf32] and
    [_ipv6Str2Buf128].  They are no code of the program: the class has no
    such methods.  The two address conversions of the specification,
    [ipv4ToBytes] and [ipv6ToBytes], are therefore modelled from the
    specification and marked as such.

    JavaScript numbers are embedded as mathematical integers together with
    [NaN] and the two infinities (the properties below are about integer
    arguments); a Node.js [Buffer] is a list of integers, each cell written
    through the [ToUint8] conversion of a typed array; a thrown exception is
    the [Throw] case of the [completion] type. *)

From Stdlib Require Import ZArith Lia Bool Ascii String.
From stdpp Require Import base list strings.
From Equations Require Import Equations.

Local Open Scope Z_scope.

(** ** Completions: a normal result or a thrown exception *)

Inductive error : Type :=
| RangeError
| TypeError.

Inductive completion (A : Type) : Type :=
| Normal (a : A)
| Throw (e : error).

Arguments Normal {A} a.
Arguments Throw {A} e.

(** ** Numbers and the integer conversions of ECMAScript *)

Module JS.

(** A number is an integer-valued double, [NaN] or an infinity.  *)
Inductive number : Type :=
| Num (z : Z)
| NaN
| Infinity (negative : bool).

(** [ToUint32]: the value modulo 2^32; [NaN] and the infinities give 0. *)
Definition ToUint32 (n : number) : Z :=
  match n with
  | Num z => z mod 2 ^ 32
  | _ => 0
  end.

(** [ToInt32]: as [ToUint32], read as a signed 32-bit integer. *)
Definition ToInt32 (n : number) : Z :=
  let u := ToUint32 n in
  if u <? 2 ^ 31 then u else u - 2 ^ 32.

(** [ToUint8]: the conversion applied by a store into a [Uint8Array]. *)
Definition ToUint8 (n : number) : Z :=
  match n with
  | Num z => z mod 256
  | _ => 0
  end.

(** [a >>> b] *)
Definition ushr (a b : number) : number :=
  Num (Z.shiftr (ToUint32 a) (Z.land (ToUint32 b) 31)).

(** [a << b] *)
Definition shl (a b : number) : number :=
  Num (ToInt32 (Num (Z.shiftl (ToInt32 a) (Z.land (ToUint32 b) 31)))).

(** [a & b] *)
Definition band (a b : number) : number :=
  Num (Z.land (ToInt32 a) (ToInt32 b)).

(** [a | b] *)
Definition bor (a b : number) : number :=
  Num (Z.lor (ToInt32 a) (ToInt32 b)).

(** [a !== b] on numbers: [NaN] differs from everything, itself included. *)
Definition strict_ne (a b : number) : bool :=
  match a, b with
  | Num x, Num y => negb (x =? y)
  | Infinity s, Infinity t => negb (Bool.eqb s t)
  | _, _ => true
  end.

(** [ToNumber] of the result of an indexed read: [undefined] is [NaN]. *)
Definition of_element (o : option Z) : number :=
  match o with
  | Some z => Num z
  | None => NaN
  end.

End JS.

Import JS.

(** ** Buffers *)

(** A [Buffer] is a [Uint8Array]: a fixed-length sequence of cells. *)
Abbreviation Buffer := (list Z).

(** The cells of a buffer hold 8-bit unsigned values. *)
Definition is_bytes (b : Buffer) : Prop :=
  Forall (fun x => 0 <= x < 256) b.

Module Buf.

(** [Buffer.alloc(n)]: [n] zero cells. *)
Definition alloc (n : nat) : Buffer := replicate n 0.

(** [buf[i]] for a number [i]: the cell, or [undefined] (here [None]) when
    [i] is not an index of the buffer. *)
Definition get (buf : Buffer) (i : number) : option Z :=
  match i with
  | Num z => if 0 <=? z then buf !! Z.to_nat z else None
  | _ => None
  end.

(** [buf[i] = v] for a literal index [i]: the cell receives [ToUint8 v];
    a store outside the buffer is ignored. *)
Definition set (buf : Buffer) (i : nat) (v : number) : Buffer :=
  <[i := ToUint8 v]> buf.

End Buf.

(** ** [STUNHelpers._int2Buf16] (stun.ts, lines 28-43) *)

Definition _int2Buf16 (int : number) : completion Buffer :=
  let buf := Buf.alloc 2 in
  let buf := Buf.set buf 0 (band (Num 255) (ushr int (Num 8))) in
  let buf := Buf.set buf 1 (band (Num 255) int) in
  Normal buf.

(** ** [STUNHelpers._getBit] (stun.ts, lines 51-65) *)

Definition _getBit (buffer : Buffer) (idx off : number) : completion Z :=
  let mask := Buf.alloc 1 in
  let mask := Buf.set mask 0 (Num 1) in
  let mask := Buf.set mask 0 (shl (of_element (Buf.get mask (Num 0))) off) in
  Normal
    (if strict_ne (band (of_element (Buf.get buffer idx))
                        (of_element (Buf.get mask (Num 0))))
                  (Num 0)
     then 1 else 0).

(** ** [STUNHelpers._compareBuf] (stun.ts, lines 77-108) *)

(** The arguments are declared [Buffer] but tested with [Buffer.isBuffer],
    so the embedding takes any value. *)
Inductive value : Type :=
| VUndefined
| VNull
| VBoolean (b : bool)
| VNumber (n : number)
| VString (s : string)
| VUint8Array (cells : list Z)
| VBuffer (b : Buffer).

Definition isBuffer (v : value) : bool :=
  match v with
  | VBuffer _ => true
  | _ => false
  end.

(** [x !== y] for two indexed reads. *)
Definition element_ne (x y : option Z) : bool :=
  match x, y with
  | None, None => false
  | _, _ => strict_ne (of_element x) (of_element y)
  end.

(** The [for] loop of [_compareBuf], entered at index [i]:
    [for (; i < a.length; i += 1) if (a[i] !== b[i]) return false;]
    followed by [return true]. *)
Equations? compareBuf_loop (a b : Buffer) (i : nat) : bool
  by wf (length a - i)%nat lt :=
  compareBuf_loop a b i with decide (i < length a)%nat := {
    | left _ =>
        if element_ne (a !! i) (b !! i) then false
        else compareBuf_loop a b (S i);
    | right _ => true }.
Proof. lia. Qed.

Definition _compareBuf (a b : value) : completion bool :=
  if negb (isBuffer a) || negb (isBuffer b) then Normal false
  else
    match a, b with
    | VBuffer x, VBuffer y =>
        if negb (length x =? length y)%nat then Normal false
        else Normal (compareBuf_loop x y 0)
    | _, _ => Normal false
    end.

(** ** [STUNType] (stun.type.ts, lines 14-30) *)

Module STUNType.

Record t : Type := mk { type : value; bin : value; f : value }.

(** A parameter with default [null]: the default is taken when the
    argument is missing, that is [undefined]. *)
Definition default_null (arg : value) : value :=
  match arg with
  | VUndefined => VNull
  | v => v
  end.

(** [new STUNType(type, bin, f)]; a missing argument is [VUndefined]. *)
Definition new (type bin f : value) : t :=
  {| type := default_null type;
     bin := default_null bin;
     f := default_null f |}.

(** [o.type = v], [o.bin = v], [o.f = v]. *)
Definition set_type (o : t) (v : value) : t :=
  {| type := v; bin := bin o; f := f o |}.
Definition set_bin (o : t) (v : value) : t :=
  {| type := type o; bin := v; f := f o |}.
Definition set_f (o : t) (v : value) : t :=
  {| type := type o; bin := bin o; f := v |}.

End STUNType.


(** ** The address conversions, modelled from the specification

    Section 4.1 of the specification gives the contracts of [ipv4ToBytes]
    and [ipv6ToBytes]; the program has no method for either (see the head of
    this file). *)

(** Modelled from the spec: the outcome of an address conversion, missing
    from the program with the conversions themselves: a byte sequence, or
    the "format error" of section 7. *)
Inductive conversion : Type :=
| Bytes (b : Buffer)
| FormatError.

(** Modelled from the spec: the number of occurrences of a character in a
    text (no method of the program splits or scans a text). *)
Fixpoint count_of (c : ascii) (s : string) : nat :=
  match s with
  | EmptyString => 0%nat
  | String d r => if Ascii.eqb d c then S (count_of c r) else count_of c r
  end.

(** Modelled from the spec: "split the input on" a separator character;
    the program has no such function.  A text without separator is one
    component; two separators in a row enclose an empty component. *)
Fixpoint split_on (sep : ascii) (s : string) : list string :=
  match s with
  | EmptyString => [EmptyString]
  | String c r =>
      if Ascii.eqb c sep then EmptyString :: split_on sep r
      else match split_on sep r with
           | h :: t => String c h :: t
           | [] => [String c EmptyString]
           end
  end.

(** Modelled from the spec: the value of a decimal digit, for "parse each
    of the 4 components as a base-10 integer" (absent from the program). *)
Definition digit_value (c : ascii) : option Z :=
  let n := nat_of_ascii c in
  if ((48 <=? n) && (n <=? 57))%nat then Some (Z.of_nat n - 48) else None.

(** Modelled from the spec: the digits of a component read from the left,
    [acc] being the value read so far; a character that is no digit makes
    the component "non-numeric". *)
Fixpoint decimal_digits (acc : Z) (s : string) : option Z :=
  match s with
  | EmptyString => Some acc
  | String c r =>
      match digit_value c with
      | Some d => decimal_digits (10 * acc + d) r
      | None => None
      end
  end.

(** Modelled from the spec: "parse ... as a base-10 integer"; an empty
    component is not numeric. *)
Definition parse_decimal (s : string) : option Z :=
  match s with
  | EmptyString => None
  | _ => decimal_digits 0 s
  end.

(** Modelled from the spec: [ipv4ToBytes], absent from the program.
    "Split the input on ".", parse each of the 4 components as a base-10
    integer, each component must be in [0,255]; produces one byte per
    component in order.  Fails with a format error if the string does not
    contain exactly 4 numeric components or any component is out of range
    or non-numeric." *)
Definition ipv4ToBytes (dottedString : string) : conversion :=
  match map parse_decimal (split_on "." dottedString) with
  | [Some a; Some b; Some c; Some d] =>
      if (a <=? 255) && (b <=? 255) && (c <=? 255) && (d <=? 255)
      then Bytes [a; b; c; d]
      else FormatError
  | _ => FormatError
  end.













(** ** Notions used in the statements *)

(** The mask cell after [mask[0] = 0x01; mask[0] <<= off]. *)
Definition getBit_mask (off : number) : Z := ToUint8 (shl (Num 1) off).

(** The eight bits of a cell, least significant first, and the number they
    spell. *)
Definition byte_bits (b : Z) : list Z :=
  map (fun k => Z.b2z (Z.testbit b k)) [0; 1; 2; 3; 4; 5; 6; 7].

Definition of_bits (bits : list Z) : Z :=
  foldr (fun b acc => b + 2 * acc) 0 bits.

Definition byte_bits_ok (k : nat) : bool :=
  of_bits (byte_bits (Z.of_nat k)) =? Z.of_nat k.

(** An octet written in decimal, without leading zeros. *)
Definition decimal_octet (n : Z) : string :=
  let d k := ascii_of_nat (48 + Z.to_nat k) in
  if n <? 10 then String (d n) EmptyString
  else if n <? 100 then String (d (n / 10)) (String (d (n mod 10)) EmptyString)
  else String (d (n / 100))
         (String (d (n / 10 mod 10)) (String (d (n mod 10)) EmptyString)).

(** The dotted text [a.b.c.d]. *)
Definition dotted_quad (a b c d : Z) : string :=
  String.append (decimal_octet a) (String "."
    (String.append (decimal_octet b) (String "."
      (String.append (decimal_octet c) (String "."
        (decimal_octet d)))))).

(** The check run over the 256 octets: the decimal text of [k] parses back
    to [k], holds neither dot nor colon and has a digit. *)
Definition octet_ok (k : nat) : bool :=
  let n := Z.of_nat k in
  match parse_decimal (decimal_octet n) with
  | Some z =>
      (z =? n)
      && (count_of "." (decimal_octet n) =? 0)%nat
      && (count_of ":" (decimal_octet n) =? 0)%nat
  | None => false
  end.

(** * Properties *)

(** ** The embedding on a few arguments *)

Example int2Buf16_448 : _int2Buf16 (Num 448) = Normal [1; 192].
Proof. reflexivity. Qed.

Example getBit_3 : _getBit [8] (Num 0) (Num 3) = Normal 1.
Proof. reflexivity. Qed.

Example compareBuf_same :
  _compareBuf (VBuffer [1; 2; 3]) (VBuffer [1; 2; 3]) = Normal true.
Proof. reflexivity. Qed.

Example compareBuf_string :
  _compareBuf (VString "abc") (VBuffer [97; 98; 99]) = Normal false.
Proof. reflexivity. Qed.

(** ** Integer conversions *)

Section Conversions.

Lemma ToInt32_small z : 0 <= z < 2 ^ 31 -> ToInt32 (Num z) = z.
Proof.
  intros Hz. unfold ToInt32, ToUint32.
  rewrite Z.mod_small by lia.
  destruct (Z.ltb_spec z (2 ^ 31)); lia.
Qed.

Lemma ToInt32_mod256 z : ToInt32 (Num z) mod 256 = z mod 256.
Proof.
  unfold ToInt32, ToUint32.
  destruct (Z.ltb_spec (z mod 2 ^ 32) (2 ^ 31));
    change (2 ^ 32) with 4294967296 in *; Z.div_mod_to_equations; lia.
Qed.

(** [0xFF & n] keeps the low eight bits of [n]. *)
Lemma band_255 z : band (Num 255) (Num z) = Num (z mod 256).
Proof.
  unfold band. rewrite (ToInt32_small 255) by lia.
  rewrite Z.land_comm. change 255 with (Z.ones 8).
  rewrite Z.land_ones by lia. change (2 ^ 8) with 256.
  now rewrite ToInt32_mod256.
Qed.

(** [n >>> 8] drops the low eight bits of the unsigned 32-bit value. *)
Lemma ushr_8 z : ushr (Num z) (Num 8) = Num (z mod 2 ^ 32 / 256).
Proof.
  unfold ushr, ToUint32.
  change (Z.land (8 mod 2 ^ 32) 31) with 8.
  now rewrite Z.shiftr_div_pow2 by lia.
Qed.

End Conversions.

(** ** [_int2Buf16] *)

(** The two cells written by [_int2Buf16], for any integer argument. *)
Lemma int2Buf16_cells v :
  _int2Buf16 (Num v) = Normal [v / 256 mod 256; v mod 256].
Proof.
  unfold _int2Buf16. rewrite ushr_8, !band_255.
  unfold Buf.set, Buf.alloc, ToUint8. simpl.
  rewrite !Z.mod_mod by lia.
  replace ((v mod 2 ^ 32 / 256) mod 256) with (v / 256 mod 256);
    [reflexivity|].
  change (2 ^ 32) with 4294967296. Z.div_mod_to_equations. lia.
Qed.

(** Reassembling a value from its two halves, bit by bit. *)
Lemma lor_shiftl_land_255 v :
  Z.lor (Z.shiftl (Z.shiftr v 8) 8) (Z.land v 255) = v.
Proof.
  apply Z.bits_inj'. intros n Hn.
  rewrite Z.lor_spec, Z.land_spec, Z.shiftl_spec by lia.
  change 255 with (Z.ones 8).
  destruct (Z.lt_ge_cases n 8) as [Hlt | Hge].
  - rewrite Z.testbit_neg_r by lia.
    rewrite Z.ones_spec_low by lia. simpl. now rewrite andb_true_r.
  - rewrite Z.shiftr_spec by lia.
    rewrite Z.ones_spec_high by lia.
    rewrite andb_false_r, orb_false_r. f_equal. lia.
Qed.

(** C1. For every integer [v] in [0, 65535], [_int2Buf16] returns a buffer of
    exactly two cells: cell 0 holds the high-order eight bits of [v] ([v]
    shifted right by 8, masked to eight bits), cell 1 the low-order eight
    bits, and [(cell0 << 8) | cell1] gives [v] back, as does the big-endian
    reading [cell0 * 256 + cell1]. *)
Theorem int2Buf16_big_endian (v : Z) (Hv : 0 <= v <= 65535) :
  exists b0 b1 : Z,
    _int2Buf16 (Num v) = Normal [b0; b1] /\
    b0 = Z.land (Z.shiftr v 8) 255 /\
    is_bytes [b0; b1] /\
    b1 = Z.land v 255 /\
    bor (shl (Num b0) (Num 8)) (Num b1) = Num v /\
    b0 * 256 + b1 = v.
Proof.
  exists (v / 256 mod 256), (v mod 256).
  assert (Hhi : v / 256 mod 256 = Z.shiftr v 8).
  { rewrite Z.shiftr_div_pow2 by lia. change (2 ^ 8) with 256.
    apply Z.mod_small. Z.div_mod_to_equations. lia. }
  assert (Hlo : v mod 256 = Z.land v 255).
  { change 255 with (Z.ones 8). now rewrite Z.land_ones by lia. }
  split; [apply int2Buf16_cells|].
  split.
  { change 255 with (Z.ones 8). rewrite Z.land_ones by lia.
    rewrite Z.shiftr_div_pow2 by lia. reflexivity. }
  split.
  { repeat constructor; try (apply Z.mod_pos_bound; lia);
      pose proof (Z.mod_pos_bound (v / 256) 256);
      pose proof (Z.mod_pos_bound v 256); lia. }
  split; [exact Hlo|].
  split.
  - unfold bor, shl.
    change (Z.land (ToUint32 (Num 8)) 31) with 8.
    assert (Hb0 : 0 <= v / 256 mod 256 < 256) by (apply Z.mod_pos_bound; lia).
    assert (Hb1 : 0 <= v mod 256 < 256) by (apply Z.mod_pos_bound; lia).
    rewrite (ToInt32_small (v / 256 mod 256)) by lia.
    rewrite (ToInt32_small (v mod 256)) by lia.
    assert (Hsh : 0 <= Z.shiftl (v / 256 mod 256) 8 < 2 ^ 31).
    { rewrite Z.shiftl_mul_pow2 by lia. lia. }
    rewrite !(ToInt32_small (Z.shiftl (v / 256 mod 256) 8)) by exact Hsh.
    rewrite Hhi, Hlo. f_equal. apply lor_shiftl_land_255.
  - Z.div_mod_to_equations. lia.
Qed.

Lemma int2Buf16_big_endian_witness :
  exists b0 b1 : Z,
    _int2Buf16 (Num 448) = Normal [b0; b1] /\
    b0 = Z.land (Z.shiftr 448 8) 255 /\
    is_bytes [b0; b1] /\
    b1 = Z.land 448 255 /\
    bor (shl (Num b0) (Num 8)) (Num b1) = Num 448 /\
    b0 * 256 + b1 = 448.
Proof. apply (int2Buf16_big_endian 448). lia. Defined.

(** C7. For every integer [v] outside [0, 65535], [_int2Buf16] returns
    normally (nothing is thrown) a buffer of two cells, the same buffer as
    for [v mod 65536]. *)
Theorem int2Buf16_wraps (v : Z) (Hv : v < 0 \/ 65535 < v) :
  (exists buf : Buffer,
      _int2Buf16 (Num v) = Normal buf /\ length buf = 2%nat) /\
  _int2Buf16 (Num v) = _int2Buf16 (Num (v mod 65536)).
Proof.
  rewrite !int2Buf16_cells. split.
  - eexists. split; reflexivity.
  - do 2 f_equal; [|f_equal]; Z.div_mod_to_equations; lia.
Qed.

Lemma int2Buf16_wraps_witness :
  (exists buf : Buffer,
      _int2Buf16 (Num (-2)) = Normal buf /\ length buf = 2%nat) /\
  _int2Buf16 (Num (-2)) = _int2Buf16 (Num ((-2) mod 65536)).
Proof. apply (int2Buf16_wraps (-2)). lia. Defined.

(** ** [_getBit] *)

Section GetBit.

Lemma getBit_unfold buffer idx off :
  _getBit buffer idx off =
  Normal (if strict_ne (band (of_element (Buf.get buffer idx))
                             (Num (getBit_mask off))) (Num 0)
          then 1 else 0).
Proof. reflexivity. Qed.

Lemma getBit_mask_pow2 off :
  0 <= off <= 31 -> getBit_mask (Num off) = 2 ^ off mod 256.
Proof.
  intros Hoff. unfold getBit_mask, shl, ToUint8.
  rewrite ToInt32_mod256.
  rewrite (ToInt32_small 1) by lia.
  unfold ToUint32.
  rewrite (Z.mod_small off) by lia.
  change 31 with (Z.ones 5). rewrite Z.land_ones by lia.
  rewrite (Z.mod_small off) by (change (2 ^ 5) with 32; lia).
  now rewrite Z.shiftl_1_l.
Qed.

(** Offsets 0..7 select one bit of the cell. *)
Lemma getBit_mask_low off :
  0 <= off <= 7 -> getBit_mask (Num off) = 2 ^ off.
Proof.
  intros Hoff. rewrite getBit_mask_pow2 by lia.
  apply Z.mod_small. split; [apply Z.pow_nonneg; lia|].
  change 256 with (2 ^ 8). apply Z.pow_lt_mono_r; lia.
Qed.

(** Offsets 8..31 shift the bit out of the one-cell mask buffer. *)
Lemma getBit_mask_high off :
  8 <= off <= 31 -> getBit_mask (Num off) = 0.
Proof.
  intros Hoff. rewrite getBit_mask_pow2 by lia.
  replace off with ((off - 8) + 8) by lia.
  rewrite Z.pow_add_r by lia. change (2 ^ 8) with 256.
  apply Z.mod_mul. lia.
Qed.

Lemma land_pow2 a n :
  0 <= n -> Z.land a (2 ^ n) = if Z.testbit a n then 2 ^ n else 0.
Proof.
  intros Hn. apply Z.bits_inj'. intros m Hm.
  rewrite Z.land_spec, Z.pow2_bits_eqb by lia.
  destruct (Z.eqb_spec n m) as [-> | Hne].
  - rewrite andb_true_r. destruct (Z.testbit a m) eqn:E.
    + now rewrite Z.pow2_bits_true.
    + now rewrite Z.bits_0.
  - rewrite andb_false_r. destruct (Z.testbit a n).
    + now rewrite Z.pow2_bits_false.
    + now rewrite Z.bits_0.
Qed.

Lemma get_in_bounds (buffer : Buffer) idx :
  0 <= idx < Z.of_nat (length buffer) ->
  exists byte, buffer !! Z.to_nat idx = Some byte /\
               Buf.get buffer (Num idx) = Some byte.
Proof.
  intros Hidx.
  destruct (lookup_lt_is_Some_2 buffer (Z.to_nat idx)) as [byte Hb]; [lia|].
  exists byte. split; [exact Hb|].
  unfold Buf.get. destruct (Z.leb_spec 0 idx); [exact Hb | lia].
Qed.

Lemma get_out_of_bounds (buffer : Buffer) idx :
  Z.of_nat (length buffer) <= idx -> Buf.get buffer (Num idx) = None.
Proof.
  intros Hidx. unfold Buf.get.
  destruct (Z.leb_spec 0 idx); [|reflexivity].
  apply lookup_ge_None_2. lia.
Qed.

End GetBit.

(** C3. For every buffer of bytes, every index below its length and every
    bit offset in [0, 7], [_getBit] returns 0 or 1, and returns 1 exactly
    when the cell at that index has a bit in common with the mask [1] shifted
    left by the offset, that is when bit [off] of the cell (bit 0 being the
    least significant) is set.  With first cell [0b00001000] the bit at
    (0, 3) is 1 and the bit at (0, 0) is 0. *)
Theorem getBit_reads_bit (buffer : Buffer) (idx off : Z)
    (Hbytes : is_bytes buffer)
    (Hidx : 0 <= idx < Z.of_nat (length buffer))
    (Hoff : 0 <= off <= 7) :
  (exists byte r : Z,
      buffer !! Z.to_nat idx = Some byte /\
      _getBit buffer (Num idx) (Num off) = Normal r /\
      (r = 0 \/ r = 1) /\
      (r = 1 <-> Z.land byte (Z.shiftl 1 off) <> 0) /\
      (r = 1 <-> Z.testbit byte off = true)) /\
  (forall rest : Buffer,
      _getBit (8 :: rest) (Num 0) (Num 3) = Normal 1 /\
      _getBit (8 :: rest) (Num 0) (Num 0) = Normal 0).
Proof.
  split; [|intros rest; split; reflexivity].
  destruct (get_in_bounds buffer idx Hidx) as (byte & Hlook & Hget).
  assert (Hb : 0 <= byte < 256).
  { unfold is_bytes in Hbytes. rewrite Forall_lookup in Hbytes.
    exact (Hbytes _ _ Hlook). }
  assert (Hm : 0 <= 2 ^ off < 256).
  { split; [apply Z.pow_nonneg; lia|].
    change 256 with (2 ^ 8). apply Z.pow_lt_mono_r; lia. }
  exists byte, (if Z.testbit byte off then 1 else 0).
  split; [exact Hlook|].
  rewrite Z.shiftl_1_l, land_pow2 by lia.
  split.
  - rewrite getBit_unfold, Hget, getBit_mask_low by lia.
    unfold band, of_element, strict_ne.
    rewrite !ToInt32_small by lia.
    rewrite land_pow2 by lia.
    destruct (Z.testbit byte off); [|reflexivity].
    destruct (Z.eqb_spec (2 ^ off) 0); [lia | reflexivity].
  - destruct (Z.testbit byte off); repeat split; auto; try lia; discriminate.
Qed.

Lemma getBit_reads_bit_witness :
  (exists byte r : Z,
      [5; 8] !! Z.to_nat 1 = Some byte /\
      _getBit [5; 8] (Num 1) (Num 3) = Normal r /\
      (r = 0 \/ r = 1) /\
      (r = 1 <-> Z.land byte (Z.shiftl 1 3) <> 0) /\
      (r = 1 <-> Z.testbit byte 3 = true)) /\
  (forall rest : Buffer,
      _getBit (8 :: rest) (Num 0) (Num 3) = Normal 1 /\
      _getBit (8 :: rest) (Num 0) (Num 0) = Normal 0).
Proof.
  apply (getBit_reads_bit [5; 8] 1 3).
  - repeat constructor; lia.
  - simpl. lia.
  - lia.
Defined.

(** C4, as the code has it. For every buffer, every index at or past its
    length and every offset, the read [buffer[idx]] is [undefined], the
    bitwise AND is 0, and [_getBit] returns 0 normally: nothing is thrown. *)
Theorem getBit_past_end (buffer : Buffer) (idx : Z) (off : number)
    (Hidx : Z.of_nat (length buffer) <= idx) :
  _getBit buffer (Num idx) off = Normal 0.
Proof.
  rewrite getBit_unfold, get_out_of_bounds by exact Hidx.
  reflexivity.
Qed.

Lemma getBit_past_end_witness : _getBit [255] (Num 1) (Num 0) = Normal 0.
Proof. apply (getBit_past_end [255] 1 (Num 0)). simpl. lia. Defined.

(** C4, as stated, fails: one past the end of a one-cell buffer [_getBit]
    returns the default 0 and throws nothing. *)
Lemma getBit_past_end_not_thrown :
  _getBit [8] (Num 1) (Num 3) = Normal 0 /\
  (forall e : error, _getBit [8] (Num 1) (Num 3) <> Throw e).
Proof. split; [reflexivity | discriminate]. Qed.

(** C10. The mask lives in a one-cell buffer, so the shifted bit is stored
    modulo 256: for every buffer, every index below its length and every
    offset in [8, 31] the mask is 0 and [_getBit] returns 0 normally, whatever
    the cell holds. *)
Theorem getBit_offset_8_31 (buffer : Buffer) (idx off : Z)
    (Hidx : 0 <= idx < Z.of_nat (length buffer))
    (Hoff : 8 <= off <= 31) :
  getBit_mask (Num off) = 0 /\
  _getBit buffer (Num idx) (Num off) = Normal 0.
Proof.
  split; [now apply getBit_mask_high|].
  rewrite getBit_unfold, getBit_mask_high by exact Hoff.
  unfold band. change (ToInt32 (Num 0)) with 0.
  now rewrite Z.land_0_r.
Qed.

Lemma getBit_offset_8_31_witness :
  getBit_mask (Num 8) = 0 /\
  _getBit [255; 255] (Num 1) (Num 8) = Normal 0.
Proof. apply (getBit_offset_8_31 [255; 255] 1 8); simpl; lia. Defined.

(** ** [_compareBuf] *)

Section CompareBuf.

Lemma element_ne_false (x y : option Z) : element_ne x y = false <-> x = y.
Proof.
  destruct x as [x|], y as [y|]; simpl; split; try congruence.
  - intros H. apply negb_false_iff, Z.eqb_eq in H. now subst.
  - intros [= ->]. now rewrite Z.eqb_refl.
Qed.

(** The loop answers [true] exactly when no index from [i] on tells the two
    buffers apart. *)
Lemma compareBuf_loop_true (a b : Buffer) (i : nat) :
  compareBuf_loop a b i = true <->
  (forall j : nat, (i <= j < length a)%nat -> a !! j = b !! j).
Proof.
  funelim (compareBuf_loop a b i).
  - destruct (element_ne (a !! i) (b !! i)) eqn:Hne.
    + split; [discriminate|]. intros Hall.
      assert (Hsame : a !! i = b !! i) by (apply Hall; lia).
      apply element_ne_false in Hsame. congruence.
    + apply element_ne_false in Hne.
      match goal with IH : compareBuf_loop _ _ _ = true <-> _ |- _ =>
        rewrite IH end.
      split; intros Hall j Hj.
      * destruct (decide (j = i)) as [-> | Hji]; [exact Hne|].
        apply Hall. lia.
      * apply Hall. lia.
  - split; [|reflexivity]. intros _ j Hj. lia.
Qed.

Lemma compareBuf_buffers (x y : Buffer) :
  _compareBuf (VBuffer x) (VBuffer y) = Normal (bool_decide (x = y)).
Proof.
  unfold _compareBuf. simpl.
  destruct (Nat.eqb_spec (length x) (length y)) as [Hlen | Hlen]; simpl.
  - f_equal. destruct (compareBuf_loop x y 0) eqn:Hloop.
    + symmetry. apply bool_decide_eq_true.
      apply list_eq. intros j.
      destruct (decide (j < length x)%nat) as [Hj | Hj].
      * apply (proj1 (compareBuf_loop_true x y 0) Hloop). lia.
      * rewrite !lookup_ge_None_2 by lia. reflexivity.
    + symmetry. apply bool_decide_eq_false. intros ->.
      assert (Ht : compareBuf_loop y y 0 = true)
        by (apply compareBuf_loop_true; reflexivity).
      congruence.
  - f_equal. symmetry. apply bool_decide_eq_false. intros ->. lia.
Qed.

Lemma compareBuf_not_buffer (a b : value) :
  isBuffer a = false \/ isBuffer b = false -> _compareBuf a b = Normal false.
Proof.
  unfold _compareBuf. intros [-> | ->]; simpl; [reflexivity|].
  now rewrite orb_true_r.
Qed.

End CompareBuf.

(** C2. [_compareBuf] always returns normally, and returns [true] if and only
    if both arguments are buffers of equal length whose cells agree at every
    index; a non-buffer argument, a length mismatch or a differing cell gives
    [false]. *)
Theorem compareBuf_true_iff (a b : value) :
  (_compareBuf a b = Normal true \/ _compareBuf a b = Normal false) /\
  (_compareBuf a b = Normal true <->
   exists x y : Buffer,
     a = VBuffer x /\ b = VBuffer y /\ length x = length y /\
     forall i : nat, (i < length x)%nat -> x !! i = y !! i) /\
  (isBuffer a = false \/ isBuffer b = false ->
   _compareBuf a b = Normal false) /\
  (forall x y : Buffer,
      a = VBuffer x -> b = VBuffer y -> length x <> length y ->
      _compareBuf a b = Normal false) /\
  (forall (x y : Buffer) (i : nat),
      a = VBuffer x -> b = VBuffer y -> x !! i <> y !! i ->
      _compareBuf a b = Normal false).
Proof.
  assert (Hbuf : forall x y : Buffer,
             x <> y -> _compareBuf (VBuffer x) (VBuffer y) = Normal false).
  { intros x y Hxy. rewrite compareBuf_buffers.
    f_equal. now apply bool_decide_eq_false. }
  repeat split.
  - destruct a, b;
      try (right; apply compareBuf_not_buffer; simpl; auto; fail).
    rewrite compareBuf_buffers. destruct (bool_decide _); auto.
  - intros Htrue.
    destruct a as [| | | | | |x];
      try (rewrite compareBuf_not_buffer in Htrue by (simpl; auto);
           discriminate).
    destruct b as [| | | | | |y];
      try (rewrite compareBuf_not_buffer in Htrue by (simpl; auto);
           discriminate).
    rewrite compareBuf_buffers in Htrue.
    injection Htrue as Htrue. apply bool_decide_eq_true in Htrue. subst y.
    exists x, x. auto.
  - intros (x & y & -> & -> & Hlen & Hall).
    rewrite compareBuf_buffers. f_equal. apply bool_decide_eq_true.
    apply list_eq. intros j.
    destruct (decide (j < length x)%nat) as [Hj | Hj]; [now apply Hall|].
    rewrite !lookup_ge_None_2 by lia. reflexivity.
  - apply compareBuf_not_buffer.
  - intros x y -> -> Hlen. apply Hbuf. congruence.
  - intros x y i -> -> Hi. apply Hbuf. congruence.
Qed.

(** C8. [_compareBuf] is reflexive on buffers, symmetric on all arguments,
    and [false] on two buffers of different lengths. *)
Theorem compareBuf_refl_sym :
  (forall x : Buffer, _compareBuf (VBuffer x) (VBuffer x) = Normal true) /\
  (forall a b : value, _compareBuf a b = _compareBuf b a) /\
  (forall x y : Buffer,
      length x <> length y ->
      _compareBuf (VBuffer x) (VBuffer y) = Normal false).
Proof.
  repeat split.
  - intros x. rewrite compareBuf_buffers. f_equal.
    now apply bool_decide_eq_true.
  - intros a b.
    destruct a as [| | | | | |x], b as [| | | | | |y];
      try reflexivity.
    rewrite !compareBuf_buffers. f_equal.
    apply bool_decide_ext. split; congruence.
  - intros x y Hlen. rewrite compareBuf_buffers. f_equal.
    apply bool_decide_eq_false. congruence.
Qed.

(** ** [STUNType] *)

(** C9. [new STUNType()] has [null] in its three fields, and an assignment
    to one field sets that field and leaves the other two as they were. *)
Theorem STUNType_defaults_and_fields :
  STUNType.new VUndefined VUndefined VUndefined
  = STUNType.mk VNull VNull VNull /\
  (forall (o : STUNType.t) (v : value),
      STUNType.type (STUNType.set_type o v) = v /\
      STUNType.bin (STUNType.set_type o v) = STUNType.bin o /\
      STUNType.f (STUNType.set_type o v) = STUNType.f o) /\
  (forall (o : STUNType.t) (v : value),
      STUNType.bin (STUNType.set_bin o v) = v /\
      STUNType.type (STUNType.set_bin o v) = STUNType.type o /\
      STUNType.f (STUNType.set_bin o v) = STUNType.f o) /\
  (forall (o : STUNType.t) (v : value),
      STUNType.f (STUNType.set_f o v) = v /\
      STUNType.type (STUNType.set_f o v) = STUNType.type o /\
      STUNType.bin (STUNType.set_f o v) = STUNType.bin o).
Proof. repeat split. Qed.


(** ** Texts: splitting and counting *)

Section Texts.

Variable sep : ascii.


(** Splitting yields one component more than there are separators. *)
Lemma length_split_on s :
  length (split_on sep s) = S (count_of sep s).
Proof.
  induction s as [|c r IH]; simpl; [reflexivity|].
  destruct (Ascii.eqb c sep); simpl; [now rewrite IH|].
  destruct (split_on sep r); simpl in *; lia.
Qed.

Lemma split_on_plain s :
  count_of sep s = 0%nat -> split_on sep s = [s].
Proof.
  induction s as [|c r IH]; simpl; [reflexivity|].
  destruct (Ascii.eqb c sep); [discriminate|].
  intros H. now rewrite IH.
Qed.

Lemma split_on_app s1 s2 :
  count_of sep s1 = 0%nat ->
  split_on sep (String.append s1 (String sep s2)) = s1 :: split_on sep s2.
Proof.
  induction s1 as [|c r IH]; simpl.
  - intros _. now rewrite Ascii.eqb_refl.
  - destruct (Ascii.eqb c sep); [discriminate|].
    intros H. now rewrite IH.
Qed.

End Texts.

(** ** [ipv4ToBytes] *)

Section Ipv4ToBytes.

Lemma decimal_digits_nonneg s : forall acc z,
  0 <= acc -> decimal_digits acc s = Some z -> 0 <= z.
Proof.
  induction s as [|c r IH]; intros acc z Hacc; simpl.
  - intros [= <-]. exact Hacc.
  - unfold digit_value.
    destruct ((48 <=? nat_of_ascii c) && (nat_of_ascii c <=? 57))%nat eqn:Hd;
      [|discriminate].
    apply andb_true_iff in Hd as [Hlo Hhi]. apply Nat.leb_le in Hlo, Hhi.
    apply IH. lia.
Qed.

Lemma parse_decimal_nonneg s z : parse_decimal s = Some z -> 0 <= z.
Proof.
  destruct s as [|c r]; [discriminate|].
  unfold parse_decimal. apply decimal_digits_nonneg. lia.
Qed.

(** What a successful conversion tells of the text. *)
Lemma ipv4ToBytes_bytes s buf :
  ipv4ToBytes s = Bytes buf <->
  exists (ca cb cc cd : string) (a b c d : Z),
    split_on "." s = [ca; cb; cc; cd] /\
    parse_decimal ca = Some a /\ parse_decimal cb = Some b /\
    parse_decimal cc = Some c /\ parse_decimal cd = Some d /\
    0 <= a <= 255 /\ 0 <= b <= 255 /\ 0 <= c <= 255 /\ 0 <= d <= 255 /\
    buf = [a; b; c; d].
Proof.
  unfold ipv4ToBytes. split.
  - intros H.
    destruct (split_on "." s) as [|ca [|cb [|cc [|cd [|ce l]]]]];
      cbn [map] in H;
      repeat match type of H with
             | context [match parse_decimal ?x with _ => _ end] =>
                 destruct (parse_decimal x) eqn:?
             end; try discriminate.
    destruct ((z <=? 255) && (z0 <=? 255) && (z1 <=? 255) && (z2 <=? 255))
      eqn:Hr; [|discriminate].
    injection H as <-.
    repeat match goal with
           | E : (_ && _)%bool = true |- _ => apply andb_true_iff in E as [? ?]
           | E : (_ <=? _) = true |- _ => apply Z.leb_le in E
           | E : parse_decimal _ = Some _ |- _ =>
               pose proof (parse_decimal_nonneg _ _ E); revert E
           end.
    intros. exists ca, cb, cc, cd, z, z0, z1, z2. repeat split; auto; lia.
  - intros (ca & cb & cc & cd & a & b & c & d & Hs & Pa & Pb & Pc & Pd
            & Ra & Rb & Rc & Rd & ->).
    rewrite Hs. cbn [map]. rewrite Pa, Pb, Pc, Pd.
    destruct (Z.leb_spec a 255); [|lia]. destruct (Z.leb_spec b 255); [|lia].
    destruct (Z.leb_spec c 255); [|lia]. destruct (Z.leb_spec d 255); [|lia].
    reflexivity.
Qed.

Lemma ipv4ToBytes_cases s :
  ipv4ToBytes s = FormatError \/ exists buf, ipv4ToBytes s = Bytes buf.
Proof. destruct (ipv4ToBytes s); eauto. Qed.


Lemma octets_ok : forallb octet_ok (seq 0 256) = true.
Proof. vm_compute. reflexivity. Qed.

Lemma decimal_octet_facts n :
  0 <= n <= 255 ->
  parse_decimal (decimal_octet n) = Some n /\
  count_of "." (decimal_octet n) = 0%nat /\
  count_of ":" (decimal_octet n) = 0%nat.
Proof.
  intros Hn.
  pose proof (proj1 (forallb_forall octet_ok (seq 0 256)) octets_ok
                (Z.to_nat n)) as Hok.
  assert (Hin : In (Z.to_nat n) (seq 0 256)) by (apply in_seq; lia).
  specialize (Hok Hin). unfold octet_ok in Hok.
  rewrite Z2Nat.id in Hok by lia.
  destruct (parse_decimal (decimal_octet n)); [|discriminate].
  apply andb_true_iff in Hok as [Hok Hc].
  apply andb_true_iff in Hok as [Hz Hd].
  apply Z.eqb_eq in Hz. apply Nat.eqb_eq in Hd, Hc. now subst.
Qed.

Lemma split_dotted_quad a b c d :
  0 <= a <= 255 -> 0 <= b <= 255 -> 0 <= c <= 255 -> 0 <= d <= 255 ->
  split_on "." (dotted_quad a b c d)
  = [decimal_octet a; decimal_octet b; decimal_octet c; decimal_octet d].
Proof.
  intros Ha Hb Hc Hd. unfold dotted_quad.
  rewrite !split_on_app by (now apply decimal_octet_facts).
  rewrite split_on_plain by (now apply decimal_octet_facts).
  reflexivity.
Qed.

Lemma ipv4ToBytes_dotted_quad a b c d :
  0 <= a <= 255 -> 0 <= b <= 255 -> 0 <= c <= 255 -> 0 <= d <= 255 ->
  ipv4ToBytes (dotted_quad a b c d) = Bytes [a; b; c; d].
Proof.
  intros Ha Hb Hc Hd. apply ipv4ToBytes_bytes.
  exists (decimal_octet a), (decimal_octet b), (decimal_octet c),
    (decimal_octet d), a, b, c, d.
  split; [now apply split_dotted_quad|].
  repeat split; try lia; now apply decimal_octet_facts.
Qed.

End Ipv4ToBytes.

(** C5. [ipv4ToBytes] returns bytes exactly for a text that splits on ["."]
    in four components, each a base-10 integer in [0, 255], and the bytes
    are these integers in order; the dotted text of four such integers gives
    them back.  Every other text fails with a format error: a number of
    components other than four, a component that is no number, a component
    above 255; so do ["256.1.1.1"] and ["1.2.3"]. *)
Theorem ipv4ToBytes_contract :
  (forall (s : string) (buf : Buffer),
      ipv4ToBytes s = Bytes buf <->
      exists (ca cb cc cd : string) (a b c d : Z),
        split_on "." s = [ca; cb; cc; cd] /\
        parse_decimal ca = Some a /\ parse_decimal cb = Some b /\
        parse_decimal cc = Some c /\ parse_decimal cd = Some d /\
        0 <= a <= 255 /\ 0 <= b <= 255 /\ 0 <= c <= 255 /\ 0 <= d <= 255 /\
        buf = [a; b; c; d]) /\
  (forall a b c d : Z,
      0 <= a <= 255 -> 0 <= b <= 255 -> 0 <= c <= 255 -> 0 <= d <= 255 ->
      ipv4ToBytes (dotted_quad a b c d) = Bytes [a; b; c; d]) /\
  (forall s : string,
      length (split_on "." s) <> 4%nat -> ipv4ToBytes s = FormatError) /\
  (forall s comp : string,
      In comp (split_on "." s) -> parse_decimal comp = None ->
      ipv4ToBytes s = FormatError) /\
  (forall (s comp : string) (n : Z),
      In comp (split_on "." s) -> parse_decimal comp = Some n -> 255 < n ->
      ipv4ToBytes s = FormatError) /\
  ipv4ToBytes "192.168.1.1" = Bytes [192; 168; 1; 1] /\
  ipv4ToBytes "256.1.1.1" = FormatError /\
  ipv4ToBytes "1.2.3" = FormatError.
Proof.
  split; [exact ipv4ToBytes_bytes|].
  split; [exact ipv4ToBytes_dotted_quad|].
  assert (Hin : forall s buf comp,
             ipv4ToBytes s = Bytes buf -> In comp (split_on "." s) ->
             exists n, parse_decimal comp = Some n /\ 0 <= n <= 255).
  { intros s buf comp H Hc. apply ipv4ToBytes_bytes in H.
    destruct H as (ca & cb & cc & cd & a & b & c & d & Hs & Pa & Pb & Pc & Pd
                   & Ra & Rb & Rc & Rd & _).
    rewrite Hs in Hc. simpl in Hc.
    destruct Hc as [<- | [<- | [<- | [<- | []]]]]; eauto. }
  repeat split.
  - intros s Hlen.
    destruct (ipv4ToBytes_cases s) as [H | [buf H]]; [exact H|].
    apply ipv4ToBytes_bytes in H.
    destruct H as (ca & cb & cc & cd & ? & ? & ? & ? & Hs & _).
    rewrite Hs in Hlen. now contradict Hlen.
  - intros s comp Hc Hnone.
    destruct (ipv4ToBytes_cases s) as [H | [buf H]]; [exact H|].
    destruct (Hin s buf comp H Hc) as (n & Hn & _). congruence.
  - intros s comp n Hc Hsome Hbig.
    destruct (ipv4ToBytes_cases s) as [H | [buf H]]; [exact H|].
    destruct (Hin s buf comp H Hc) as (m & Hm & Hr).
    assert (m = n) by congruence. lia.
Qed.

(** ** [ipv6ToBytes] *)

Section Ipv6ToBytes.













End Ipv6ToBytes.


(** * Further properties of the helpers *)

(** ** [_int2Buf16]: which arguments share a buffer *)

Section MoreInt2Buf16.

Lemma ToUint8_range n : 0 <= ToUint8 n < 256.
Proof. destruct n; simpl; [apply Z.mod_pos_bound|..]; lia. Qed.

Lemma cells_congruent v w :
  v / 256 mod 256 = w / 256 mod 256 /\ v mod 256 = w mod 256 <->
  v mod 65536 = w mod 65536.
Proof. split; [intros [H1 H2] | intros H; split]; Z.div_mod_to_equations; lia. Qed.

End MoreInt2Buf16.

(** X1. Two integers get the same buffer from [_int2Buf16] exactly when they
    are congruent modulo 65536; in particular the encoding is injective on
    [0, 65535]. *)
Theorem int2Buf16_same_buffer (v w : Z) :
  (_int2Buf16 (Num v) = _int2Buf16 (Num w) <-> v mod 65536 = w mod 65536) /\
  (0 <= v <= 65535 -> 0 <= w <= 65535 ->
   _int2Buf16 (Num v) = _int2Buf16 (Num w) -> v = w).
Proof.
  assert (Hiff : _int2Buf16 (Num v) = _int2Buf16 (Num w) <->
                 v mod 65536 = w mod 65536).
  { rewrite !int2Buf16_cells, <- cells_congruent. split.
    - intros [= H1 H2]. now split.
    - intros [-> ->]. reflexivity. }
  split; [exact Hiff|].
  intros Hv Hw H. apply Hiff in H.
  rewrite !Z.mod_small in H by lia. exact H.
Qed.

(** ** [_getBit]: indices, offsets and the bits of a cell *)

Section MoreGetBit.

(** The shift count of [<<] is the offset modulo 32. *)
Lemma shift_count off : Z.land (ToUint32 (Num off)) 31 = off mod 32.
Proof.
  unfold ToUint32. change 31 with (Z.ones 5).
  rewrite Z.land_ones by lia.
  change (2 ^ 5) with 32. change (2 ^ 32) with 4294967296.
  Z.div_mod_to_equations. lia.
Qed.

Lemma getBit_mask_mod_32 off :
  getBit_mask (Num off) = getBit_mask (Num (off mod 32)).
Proof.
  unfold getBit_mask, shl. rewrite !shift_count.
  now rewrite Z.mod_mod by lia.
Qed.

(** The value read for a cell in bounds and an offset in 0..7. *)
Lemma getBit_value (buffer : Buffer) idx off byte :
  Buf.get buffer idx = Some byte -> 0 <= byte < 256 -> 0 <= off <= 7 ->
  _getBit buffer idx (Num off) = Normal (Z.b2z (Z.testbit byte off)).
Proof.
  intros Hget Hb Hoff.
  assert (Hm : 0 <= 2 ^ off < 256).
  { split; [apply Z.pow_nonneg; lia|].
    change 256 with (2 ^ 8). apply Z.pow_lt_mono_r; lia. }
  rewrite getBit_unfold, Hget, getBit_mask_low by lia.
  unfold band, of_element, strict_ne.
  rewrite !ToInt32_small by lia.
  rewrite land_pow2 by lia.
  destruct (Z.testbit byte off); [|reflexivity].
  destruct (Z.eqb_spec (2 ^ off) 0); [lia | reflexivity].
Qed.

Lemma byte_bits_all : forallb byte_bits_ok (seq 0 256) = true.
Proof. vm_compute. reflexivity. Qed.

Lemma of_bits_byte b : 0 <= b < 256 -> of_bits (byte_bits b) = b.
Proof.
  intros Hb.
  pose proof (proj1 (forallb_forall byte_bits_ok (seq 0 256)) byte_bits_all
                (Z.to_nat b)) as Hok.
  assert (Hin : In (Z.to_nat b) (seq 0 256)) by (apply in_seq; lia).
  specialize (Hok Hin). unfold byte_bits_ok in Hok.
  rewrite Z2Nat.id in Hok by lia. now apply Z.eqb_eq in Hok.
Qed.

Lemma is_bytes_lookup (buffer : Buffer) i byte :
  is_bytes buffer -> buffer !! i = Some byte -> 0 <= byte < 256.
Proof.
  unfold is_bytes. rewrite Forall_lookup. intros H Hl. exact (H _ _ Hl).
Qed.

End MoreGetBit.

(** X3. An index that is no index of the buffer - a negative integer, [NaN]
    or an infinity - makes [_getBit] return 0 without throwing, for every
    buffer and offset. *)
Theorem getBit_no_index (buffer : Buffer) (off : number) :
  (forall z : Z, z < 0 -> _getBit buffer (Num z) off = Normal 0) /\
  _getBit buffer NaN off = Normal 0 /\
  (forall s : bool, _getBit buffer (Infinity s) off = Normal 0).
Proof.
  repeat split; try reflexivity.
  intros z Hz. rewrite getBit_unfold. unfold Buf.get.
  destruct (Z.leb_spec 0 z); [lia | reflexivity].
Qed.

(** X4. The offset of [_getBit] counts modulo 32: an offset and its
    remainder modulo 32 read the same, so that offsets 32..39 read bits 0..7
    of the cell again, and so do the negative offsets -32..-25. *)
Theorem getBit_offset_mod_32 (buffer : Buffer) (idx : number) (off : Z) :
  _getBit buffer idx (Num off) = _getBit buffer idx (Num (off mod 32)).
Proof. now rewrite !getBit_unfold, getBit_mask_mod_32. Qed.

(** X5. The eight results of [_getBit] at offsets 0..7 of a cell in bounds
    are the binary digits of the cell: each is 0 or 1, the one at offset [k]
    is bit [k] of the cell, and weighted by the powers of two, least
    significant first, they add up to its value. *)
Theorem getBit_spells_byte (buffer : Buffer) (idx byte : Z)
    (Hbytes : is_bytes buffer)
    (Hidx : 0 <= idx)
    (Hcell : buffer !! Z.to_nat idx = Some byte) :
  exists bits : list Z,
    map (fun off => _getBit buffer (Num idx) (Num off)) [0; 1; 2; 3; 4; 5; 6; 7]
    = map Normal bits /\
    bits = map (fun k => Z.b2z (Z.testbit byte k)) [0; 1; 2; 3; 4; 5; 6; 7] /\
    Forall (fun b => b = 0 \/ b = 1) bits /\
    of_bits bits = byte.
Proof.
  pose proof (is_bytes_lookup _ _ _ Hbytes Hcell) as Hb.
  assert (Hget : Buf.get buffer (Num idx) = Some byte).
  { unfold Buf.get. destruct (Z.leb_spec 0 idx); [exact Hcell | lia]. }
  exists (byte_bits byte). split; [|split; [reflexivity|split]].
  - unfold byte_bits. cbn [map].
    rewrite !(getBit_value buffer (Num idx) _ byte Hget Hb) by lia.
    reflexivity.
  - unfold byte_bits. cbn [map].
    repeat (constructor;
            [match goal with |- context [Z.testbit byte ?k] =>
               destruct (Z.testbit byte k); [right | left]; reflexivity end|]).
    constructor.
  - now apply of_bits_byte.
Qed.

Lemma getBit_spells_byte_witness :
  exists bits : list Z,
    map (fun off => _getBit [7; 200] (Num 1) (Num off)) [0; 1; 2; 3; 4; 5; 6; 7]
    = map Normal bits /\
    bits = map (fun k => Z.b2z (Z.testbit 200 k)) [0; 1; 2; 3; 4; 5; 6; 7] /\
    Forall (fun b => b = 0 \/ b = 1) bits /\
    of_bits bits = 200.
Proof.
  apply (getBit_spells_byte [7; 200] 1 200).
  - repeat constructor; lia.
  - lia.
  - reflexivity.
Defined.

(** X6. Reading the encoding of an integer bit by bit: for [k] in 0..15,
    bit [k] of [v] is found by [_getBit] in the buffer of [_int2Buf16], in
    cell [1 - k / 8] at offset [k mod 8]. *)
Theorem getBit_of_int2Buf16 (v k : Z) (Hk : 0 <= k <= 15) :
  exists buf : Buffer,
    _int2Buf16 (Num v) = Normal buf /\
    _getBit buf (Num (1 - k / 8)) (Num (k mod 8))
    = Normal (Z.b2z (Z.testbit v k)).
Proof.
  eexists. split; [apply int2Buf16_cells|].
  assert (Hlo : 0 <= v mod 256 < 256) by (apply Z.mod_pos_bound; lia).
  assert (Hhi : 0 <= v / 256 mod 256 < 256) by (apply Z.mod_pos_bound; lia).
  destruct (Z.lt_ge_cases k 8) as [Hlt | Hge].
  - replace (k / 8) with 0 by (Z.div_mod_to_equations; lia).
    rewrite (Z.mod_small k 8) by lia.
    rewrite (getBit_value _ _ _ (v mod 256)) by (try reflexivity; lia).
    change 256 with (2 ^ 8). now rewrite Z.mod_pow2_bits_low by lia.
  - replace (k / 8) with 1 by (Z.div_mod_to_equations; lia).
    replace (k mod 8) with (k - 8) by (Z.div_mod_to_equations; lia).
    rewrite (getBit_value _ _ _ (v / 256 mod 256)) by (try reflexivity; lia).
    change 256 with (2 ^ 8).
    rewrite Z.mod_pow2_bits_low, Z.div_pow2_bits by lia.
    do 3 f_equal. lia.
Qed.

Lemma getBit_of_int2Buf16_witness :
  exists buf : Buffer,
    _int2Buf16 (Num 448) = Normal buf /\
    _getBit buf (Num (1 - 8 / 8)) (Num (8 mod 8))
    = Normal (Z.b2z (Z.testbit 448 8)).
Proof. apply (getBit_of_int2Buf16 448 8). lia. Defined.

(** ** [_compareBuf]: an equivalence, and what it tells of the contents *)

Section MoreCompareBuf.

Lemma compareBuf_true_buffers (a b : value) :
  _compareBuf a b = Normal true ->
  exists x : Buffer, a = VBuffer x /\ b = VBuffer x.
Proof.
  intros H.
  destruct a as [| | | | | |x];
    try (rewrite compareBuf_not_buffer in H by (simpl; auto); discriminate).
  destruct b as [| | | | | |y];
    try (rewrite compareBuf_not_buffer in H by (simpl; auto); discriminate).
  rewrite compareBuf_buffers in H. injection H as H.
  apply bool_decide_eq_true in H. subst y. now exists x.
Qed.

Lemma compareBuf_same_buffer (x : Buffer) :
  _compareBuf (VBuffer x) (VBuffer x) = Normal true.
Proof.
  rewrite compareBuf_buffers. f_equal. now apply bool_decide_eq_true.
Qed.

(** Two bytes with the same eight bits are equal. *)
Lemma byte_ext a b :
  0 <= a < 256 -> 0 <= b < 256 ->
  (forall off : Z, 0 <= off <= 7 -> Z.testbit a off = Z.testbit b off) ->
  a = b.
Proof.
  intros Ha Hb Hbits.
  rewrite <- (of_bits_byte a Ha), <- (of_bits_byte b Hb).
  unfold byte_bits. cbn [map]. now rewrite !Hbits by lia.
Qed.

End MoreCompareBuf.

(** X7. [_compareBuf] is transitive: with C8 it is an equivalence on
    buffers. *)
Theorem compareBuf_trans (a b c : value)
    (Hab : _compareBuf a b = Normal true)
    (Hbc : _compareBuf b c = Normal true) :
  _compareBuf a c = Normal true.
Proof.
  apply compareBuf_true_buffers in Hab as (x & -> & ->).
  apply compareBuf_true_buffers in Hbc as (y & Hxy & ->).
  injection Hxy as <-. apply compareBuf_same_buffer.
Qed.

Lemma compareBuf_trans_witness :
  _compareBuf (VBuffer [1; 2]) (VBuffer [1; 2]) = Normal true.
Proof.
  apply (compareBuf_trans (VBuffer [1; 2]) (VBuffer [1; 2]) (VBuffer [1; 2]));
    reflexivity.
Defined.

(** X8. [_compareBuf] on two encodings: the buffers that [_int2Buf16]
    returns for two integers compare equal exactly when the integers are
    congruent modulo 65536. *)
Theorem compareBuf_of_int2Buf16 (v w : Z) :
  exists bv bw : Buffer,
    _int2Buf16 (Num v) = Normal bv /\
    _int2Buf16 (Num w) = Normal bw /\
    (_compareBuf (VBuffer bv) (VBuffer bw) = Normal true <->
     v mod 65536 = w mod 65536).
Proof.
  do 2 eexists. split; [apply int2Buf16_cells|].
  split; [apply int2Buf16_cells|].
  rewrite compareBuf_buffers, <- cells_congruent. split.
  - intros [= H]. apply bool_decide_eq_true in H.
    injection H as H1 H2. now split.
  - intros [H1 H2]. f_equal. apply bool_decide_eq_true. now rewrite H1, H2.
Qed.

(** X9. [_compareBuf] against [_getBit]: two buffers of bytes compare equal
    exactly when they have the same length and [_getBit] reads the same bit
    at every index in bounds and every offset in 0..7. *)
Theorem compareBuf_iff_bits (x y : Buffer)
    (Hx : is_bytes x) (Hy : is_bytes y) :
  _compareBuf (VBuffer x) (VBuffer y) = Normal true <->
  length x = length y /\
  forall idx off : Z,
    0 <= idx < Z.of_nat (length x) -> 0 <= off <= 7 ->
    _getBit x (Num idx) (Num off) = _getBit y (Num idx) (Num off).
Proof.
  rewrite compareBuf_buffers. split.
  - intros [= H]. apply bool_decide_eq_true in H. subst y. auto.
  - intros [Hlen Hbits]. f_equal. apply bool_decide_eq_true.
    apply list_eq. intros j.
    destruct (decide (j < length x)%nat) as [Hj | Hj];
      [|rewrite !lookup_ge_None_2 by lia; reflexivity].
    destruct (lookup_lt_is_Some_2 x j Hj) as [a Ha].
    destruct (lookup_lt_is_Some_2 y j) as [b Hb]; [lia|].
    rewrite Ha, Hb. f_equal.
    pose proof (is_bytes_lookup _ _ _ Hx Ha) as Ra.
    pose proof (is_bytes_lookup _ _ _ Hy Hb) as Rb.
    apply byte_ext; try assumption. intros off Hoff.
    assert (Hga : Buf.get x (Num (Z.of_nat j)) = Some a).
    { unfold Buf.get. rewrite Nat2Z.id.
      destruct (Z.leb_spec 0 (Z.of_nat j)); [exact Ha | lia]. }
    assert (Hgb : Buf.get y (Num (Z.of_nat j)) = Some b).
    { unfold Buf.get. rewrite Nat2Z.id.
      destruct (Z.leb_spec 0 (Z.of_nat j)); [exact Hb | lia]. }
    specialize (Hbits (Z.of_nat j) off ltac:(lia) Hoff).
    rewrite (getBit_value x _ off a Hga Ra Hoff) in Hbits.
    rewrite (getBit_value y _ off b Hgb Rb Hoff) in Hbits.
    injection Hbits as Hbits.
    destruct (Z.testbit a off), (Z.testbit b off);
      try reflexivity; discriminate.
Qed.

Lemma compareBuf_iff_bits_witness :
  _compareBuf (VBuffer [5; 8]) (VBuffer [5; 8]) = Normal true <->
  length [5; 8] = length [5; 8] /\
  forall idx off : Z,
    0 <= idx < Z.of_nat (length [5; 8]) -> 0 <= off <= 7 ->
    _getBit [5; 8] (Num idx) (Num off) = _getBit [5; 8] (Num idx) (Num off).
Proof. apply (compareBuf_iff_bits [5; 8] [5; 8]); repeat constructor; lia. Defined.

(** ** [STUNType]: what the constructor can store *)

(** X10. The defaults of the constructor replace [undefined] only: an
    argument that is not [undefined] - [null] included - is stored as it is,
    and no field of a new object is [undefined], whatever the arguments; an
    assignment, unlike the constructor, does store [undefined]. *)
Theorem STUNType_new_fields (a b c : value) :
  (a <> VUndefined -> STUNType.type (STUNType.new a b c) = a) /\
  (b <> VUndefined -> STUNType.bin (STUNType.new a b c) = b) /\
  (c <> VUndefined -> STUNType.f (STUNType.new a b c) = c) /\
  STUNType.type (STUNType.new a b c) <> VUndefined /\
  STUNType.bin (STUNType.new a b c) <> VUndefined /\
  STUNType.f (STUNType.new a b c) <> VUndefined /\
  STUNType.bin (STUNType.set_bin (STUNType.new a b c) VUndefined)
  = VUndefined.
Proof.
  repeat split; try (destruct a; simpl; congruence);
    try (destruct b; simpl; congruence); destruct c; simpl; congruence.
Qed.

